(** * haya/pkg/ledger: transactions, the balance check and the Ledger

    A shallow embedding of the Go package [ledger] (the double-entry
    accounting core) and the properties of its balance check, its entry
    totals and its [Ledger] orchestration.

    The embedded text is the single-file version of the package, which
    holds the [Transaction] methods and the [Ledger] together; the
    methods of [pkg/ledger/account.go] have the same bodies and touch no
    field but [Entries].

    Conventions of the embedding:
    - Go's [int] is the 64-bit signed integer of the usual targets
      (amd64, arm64); a value is a [Z] in [MinInt .. MaxInt] and every
      [+=] wraps around, as the Go specification defines for signed
      overflow.
    - An [error] is modelled by its message; [nil] is [None].
    - A method with a pointer receiver [*Transaction] is a state
      computation over the transaction it points to, written statement
      by statement: a field read goes through the receiver and the
      writes of [AddEntry] and [AddEntries] go through it too. The
      reading methods are given as well as functions of the receiver's
      value, and proved equal to their bodies run on the receiver.
    - The [Storage] interface and the wall clock are the package's only
      contacts with the outside; a call to either is a node of a small
      program tree, interpreted against an arbitrary implementation. A
      call of the unexported [getAccountBalance] is a node too, so that
      the arguments a query passes on are part of what it does. *)

From Stdlib Require Import ZArith List String Bool Lia Permutation.
Import ListNotations.

Local Open Scope string_scope.
Local Open Scope Z_scope.

(** ** Go's [int] *)

Module GoInt.

(** [strconv.IntSize] on 64-bit targets. *)
Definition intSize : Z := 64.

Definition modulus : Z := 2 ^ intSize.
Definition MinInt : Z := - 2 ^ (intSize - 1).
Definition MaxInt : Z := 2 ^ (intSize - 1) - 1.

(** A value that an [int] variable can hold. *)
Definition in_range (z : Z) : Prop := MinInt <= z <= MaxInt.

(** Two's complement reduction of a mathematical integer. *)
Definition wrap (z : Z) : Z := (z - MinInt) mod modulus + MinInt.

(** [x + y] on [int]. *)
Definition add (x y : Z) : Z := wrap (x + y).

End GoInt.

(** ** Data model *)

(** [uuid.UUID] is [[16]byte]. *)
Definition UUID : Type := list Byte.byte.
Definition uuid_Nil : UUID := repeat Byte.x00 16.

(** [time.Time], as an instant counted from Go's zero time. *)
Definition Time : Type := Z.
Definition zeroTime : Time := 0.

(** [context.Context] carries nothing the package reads. *)
Inductive Context : Type := ctxBackground | ctxWithValue (key val : string) (parent : Context).

(** [error]: [nil] or a value built by [errors.New]. *)
Definition error : Type := option string.
Definition errors_New (text : string) : error := Some text.

Definition AccountType : Type := string.
Definition AccountTypeAsset : AccountType := "Asset".
Definition AccountTypeExpense : AccountType := "Expense".
Definition AccountTypeLiability : AccountType := "Liability".
Definition AccountTypeEquity : AccountType := "Equity".
Definition AccountTypeRevenue : AccountType := "Revenue".

Record Account : Type := mkAccount {
  acc_ID : UUID;
  acc_ParentID : UUID;
  acc_Name : string;
  acc_AccountType : AccountType
}.

Record Entry : Type := mkEntry {
  Account_ : UUID;
  Amount : Z
}.

Definition TransactionType : Type := string.
Definition TransactionTypeRegular : TransactionType := "Regular".
Definition TransactionTypeClosing : TransactionType := "Closing".

Record Transaction : Type := mkTransaction {
  Entries : list Entry;
  Timestamp : Time;
  TransactionType_ : TransactionType
}.

Record AccountBalance : Type := mkAccountBalance {
  AccountID : UUID;
  AccountType_ : AccountType;
  Balance : Z;
  BalanceTimestamp : Time
}.

(** The composite literal [AccountBalance{}]: every field at its zero
    value. *)
Definition zeroAccountBalance : AccountBalance :=
  mkAccountBalance uuid_Nil "" 0 zeroTime.

(** ** Constructors *)

Definition newTransaction (timestamp : Time) (t_type : TransactionType) : Transaction :=
  mkTransaction [] timestamp t_type.

Definition NewRegularTransaction (timestamp : Time) : Transaction :=
  newTransaction timestamp TransactionTypeRegular.

Definition NewTransaction (timestamp : Time) : Transaction :=
  NewRegularTransaction timestamp.

Definition NewClosingTransaction (timestamp : Time) : Transaction :=
  newTransaction timestamp TransactionTypeClosing.

(** ** Read-only methods of [*Transaction], as functions of the value
    the receiver points to *)

(** [var sum int; for _, entry := range t.Entries { sum += entry.Amount }] *)
Definition sumAmounts (entries : list Entry) : Z :=
  fold_left (fun sum entry => GoInt.add sum (Amount entry)) entries 0.

Definition IsBalanced (t : Transaction) : bool * error :=
  if Nat.eqb (List.length (Entries t)) 0 then
    (true, errors_New "transaction has no entries")
  else if Nat.eqb (List.length (Entries t)) 1 then
    (false, errors_New "transaction has only one entry")
  else
    let sum := sumAmounts (Entries t) in
    if negb (sum =? 0) then
      (false, errors_New "transaction is unbalanced")
    else
      (true, None).

Definition TotalIncreases (t : Transaction) : Z :=
  fold_left
    (fun total entry =>
       if Amount entry >? 0 then GoInt.add total (Amount entry) else total)
    (Entries t) 0.

Definition TotalDecreases (t : Transaction) : Z :=
  fold_left
    (fun total entry =>
       if Amount entry <? 0 then GoInt.add total (Amount entry) else total)
    (Entries t) 0.

(** ** Methods that write through the receiver *)

(** A method called on [t *Transaction]: it reads the transaction the
    pointer designates and leaves a (possibly updated) transaction
    behind. *)
Definition TxM (A : Type) : Type := Transaction -> A * Transaction.

Definition tx_ret {A} (a : A) : TxM A := fun t => (a, t).

Definition tx_bind {A B} (m : TxM A) (k : A -> TxM B) : TxM B :=
  fun t => let (a, t') := m t in k a t'.

Definition tx_get : TxM Transaction := fun t => (t, t).

(** The transaction [t] after the assignment [t.Entries = entries]. *)
Definition withEntries (t : Transaction) (entries : list Entry) : Transaction :=
  mkTransaction entries (Timestamp t) (TransactionType_ t).

Definition tx_setEntries (entries : list Entry) : TxM unit :=
  fun t => (tt, withEntries t entries).

Declare Scope tx_scope.
Delimit Scope tx_scope with tx.
Notation "x <- m ;; k" := (tx_bind m (fun x => k))
  (at level 61, m at next level, right associativity) : tx_scope.
Notation "m ;; k" := (tx_bind m (fun _ => k))
  (at level 61, right associativity) : tx_scope.

(** [t.Entries = append(t.Entries, e)] *)
Definition AddEntry (e : Entry) : TxM unit :=
  (t <- tx_get ;; tx_setEntries (Entries t ++ [e]))%tx.

(** [t.Entries = append(t.Entries, entries...)] *)
Definition AddEntries (entries : list Entry) : TxM unit :=
  (t <- tx_get ;; tx_setEntries (Entries t ++ entries))%tx.

(** The field read [t.Entries], through the receiver. *)
Definition tx_Entries : TxM (list Entry) :=
  (t <- tx_get ;; tx_ret (Entries t))%tx.

(** [for _, entry := range entries { body }], the body being a statement
    on the receiver that updates the loop's local variable. *)
Fixpoint forRange {A} (entries : list Entry) (body : A -> Entry -> TxM A) (acc : A) : TxM A :=
  match entries with
  | [] => tx_ret acc
  | entry :: rest => (acc' <- body acc entry ;; forRange rest body acc')%tx
  end.

(** [func (t *Transaction) IsBalanced() (bool, error)], statement by
    statement on the receiver: every [t.Entries] is a read through the
    pointer, and the same monad carries the writes of [AddEntry]. *)
Definition IsBalancedM : TxM (bool * error) :=
  (entries <- tx_Entries ;;
   (if Nat.eqb (List.length entries) 0 then
      tx_ret (true, errors_New "transaction has no entries")
    else
      entries <- tx_Entries ;;
      (if Nat.eqb (List.length entries) 1 then
         tx_ret (false, errors_New "transaction has only one entry")
       else
         entries <- tx_Entries ;;
         sum <- forRange entries
                  (fun sum entry => tx_ret (GoInt.add sum (Amount entry))) 0 ;;
         (if negb (sum =? 0) then
            tx_ret (false, errors_New "transaction is unbalanced")
          else
            tx_ret (true, None)))))%tx.

(** [for _, e := range entries { t.AddEntry(e) }] *)
Fixpoint forEachAddEntry (entries : list Entry) : TxM unit :=
  match entries with
  | [] => tx_ret tt
  | e :: rest => (AddEntry e ;; forEachAddEntry rest)%tx
  end.

(** [n] calls of [t.IsBalanced()] in a row, results collected. *)
Fixpoint repeatIsBalanced (n : nat) : TxM (list (bool * error)) :=
  match n with
  | O => tx_ret []
  | S n' => (r <- IsBalancedM ;; rs <- repeatIsBalanced n' ;; tx_ret (r :: rs))%tx
  end.

(** A check, then [t.AddEntry(e)], then a second check. *)
Definition checkAddCheck (e : Entry) : TxM ((bool * error) * (bool * error)) :=
  (before <- IsBalancedM ;; AddEntry e ;; after <- IsBalancedM ;; tx_ret (before, after))%tx.

(** ** The Ledger and its collaborators *)

(** The arguments of one call of the unexported method
    [l.getAccountBalance(ctx, accountID, t, closed)]. *)
Record BalanceCall : Type := mkBalanceCall {
  call_ctx : Context;
  call_accountID : UUID;
  call_t : Time;
  call_closed : bool
}.

(** A computation of the [Ledger]: it returns, or it calls
    [l.storage.SaveTransaction(ctx, t)] and goes on with the error that
    comes back, or it calls [time.Now()] and goes on with the instant, or
    it calls [l.getAccountBalance] with the given arguments and goes on
    as the body of that method does. *)
Inductive Prog (A : Type) : Type :=
| Ret (a : A)
| CallSaveTransaction (ctx : Context) (t : Transaction) (k : error -> Prog A)
| CallNow (k : Time -> Prog A)
| CallGetAccountBalance (c : BalanceCall) (body : Prog A).

Arguments Ret {A} a.
Arguments CallSaveTransaction {A} ctx t k.
Arguments CallNow {A} k.
Arguments CallGetAccountBalance {A} c body.

(** [func (l *Ledger) AddTransaction(ctx, t) error] *)
Definition AddTransaction (ctx : Context) (t : Transaction) : Prog error :=
  let '(balanced, err) := IsBalanced t in
  if negb balanced then
    Ret err
  else
    CallSaveTransaction ctx t Ret.

(** [func (l *Ledger) getAccountBalance(ctx, accountID, t, closed)]:
    [_, _, _, _ = ctx, accountID, t, closed; return AccountBalance{}, nil] *)
Definition getAccountBalance (ctx : Context) (accountID : UUID) (t : Time) (closed : bool)
  : Prog (AccountBalance * error) :=
  Ret (zeroAccountBalance, None).

(** The call expression [l.getAccountBalance(ctx, accountID, t, closed)]:
    the call with its arguments, then the body of the method. *)
Definition call_getAccountBalance (ctx : Context) (accountID : UUID) (t : Time) (closed : bool)
  : Prog (AccountBalance * error) :=
  CallGetAccountBalance (mkBalanceCall ctx accountID t closed)
    (getAccountBalance ctx accountID t closed).

(** [t := time.Now(); return l.getAccountBalance(ctx, accountID, t, closed)] *)
Definition GetCurrentAccountBalance (ctx : Context) (accountID : UUID) (closed : bool)
  : Prog (AccountBalance * error) :=
  CallNow (fun t => call_getAccountBalance ctx accountID t closed).

(** [return l.getAccountBalance(ctx, accountID, t, false)] *)
Definition GetAccountBalanceAt (ctx : Context) (accountID : UUID) (t : Time)
  : Prog (AccountBalance * error) :=
  call_getAccountBalance ctx accountID t false.

(** [return l.getAccountBalance(ctx, accountID, t, true)] *)
Definition GetAccountBalanceClosedAt (ctx : Context) (accountID : UUID) (t : Time)
  : Prog (AccountBalance * error) :=
  call_getAccountBalance ctx accountID t true.

(** What a [Ledger] runs against: an implementation of the [Storage]
    interface and a clock, both with a state [W] of their own. *)
Class Collaborators (W : Type) : Type := {
  SaveTransaction : Context -> Transaction -> W -> error * W;
  time_Now : W -> Time * W
}.

Fixpoint run {W} `{Collaborators W} {A} (p : Prog A) (w : W) : A * W :=
  match p with
  | Ret a => (a, w)
  | CallSaveTransaction ctx t k =>
      let (err, w') := SaveTransaction ctx t w in run (k err) w'
  | CallNow k =>
      let (now, w') := time_Now w in run (k now) w'
  | CallGetAccountBalance _ body => run body w
  end.

(** The number of [SaveTransaction] calls a run makes. *)
Fixpoint saveCalls {W} `{Collaborators W} {A} (p : Prog A) (w : W) : nat :=
  match p with
  | Ret _ => O
  | CallSaveTransaction ctx t k =>
      let (err, w') := SaveTransaction ctx t w in S (saveCalls (k err) w')
  | CallNow k =>
      let (now, w') := time_Now w in saveCalls (k now) w'
  | CallGetAccountBalance _ body => saveCalls body w
  end.

(** The calls of [l.getAccountBalance] a run makes, with their arguments,
    in order. *)
Fixpoint balanceCalls {W} `{Collaborators W} {A} (p : Prog A) (w : W) : list BalanceCall :=
  match p with
  | Ret _ => []
  | CallSaveTransaction ctx t k =>
      let (err, w') := SaveTransaction ctx t w in balanceCalls (k err) w'
  | CallNow k =>
      let (now, w') := time_Now w in balanceCalls (k now) w'
  | CallGetAccountBalance c body => c :: balanceCalls body w
  end.

(** The number of [time.Now()] calls a run makes. *)
Fixpoint nowCalls {W} `{Collaborators W} {A} (p : Prog A) (w : W) : nat :=
  match p with
  | Ret _ => O
  | CallSaveTransaction ctx t k =>
      let (err, w') := SaveTransaction ctx t w in nowCalls (k err) w'
  | CallNow k =>
      let (now, w') := time_Now w in S (nowCalls (k now) w')
  | CallGetAccountBalance _ body => nowCalls body w
  end.

(** A recording double of [Storage]: it keeps what it was asked to save
    and answers with a fixed error; its clock advances by one per read. *)
Record Spy : Type := mkSpy {
  spy_saved : list Transaction;
  spy_answer : error;
  spy_clock : Time
}.

#[export] Instance SpyCollaborators : Collaborators Spy := {
  SaveTransaction := fun _ t w =>
    (spy_answer w, mkSpy (spy_saved w ++ [t]) (spy_answer w) (spy_clock w));
  time_Now := fun w =>
    (spy_clock w, mkSpy (spy_saved w) (spy_answer w) (spy_clock w + 1))
}.

(** ** Exact (unbounded) arithmetic over the amounts *)

Definition amounts (entries : list Entry) : list Z := map Amount entries.

(** The sum of the amounts as integers, with no wrap-around. *)
Definition exactSum (entries : list Entry) : Z :=
  fold_right Z.add 0 (amounts entries).

(** The amounts strictly above, respectively strictly below, zero. *)
Definition positives (entries : list Entry) : list Entry :=
  filter (fun e => Amount e >? 0) entries.
Definition negatives (entries : list Entry) : list Entry :=
  filter (fun e => Amount e <? 0) entries.

(** The policy table of the balance check, read as a function of the
    entry count and of a sum of the amounts. *)
Definition policyTable (count : nat) (sum : Z) : bool * error :=
  match count with
  | O => (true, Some "transaction has no entries")
  | S O => (false, Some "transaction has only one entry")
  | _ => if sum =? 0 then (true, None) else (false, Some "transaction is unbalanced")
  end.

(** ** Sample transactions *)

Definition cash : UUID := repeat Byte.x01 16.
Definition sales : UUID := repeat Byte.x02 16.
Definition fees : UUID := repeat Byte.x03 16.

Definition debit : Entry := mkEntry cash (-100).
Definition credit : Entry := mkEntry sales 100.
Definition plus : Entry := mkEntry fees 100.

(** The transactions of the package's test, step by step. *)
Definition txEmpty : Transaction := NewTransaction 1700000000.
Definition txSingle : Transaction := mkTransaction [debit] 1700000000 TransactionTypeRegular.
Definition txPair : Transaction := mkTransaction [debit; credit] 1700000000 TransactionTypeRegular.
Definition txTriple : Transaction :=
  mkTransaction [debit; credit; plus] 1700000000 TransactionTypeRegular.

(** Transactions whose amounts are at the ends of the [int] range. *)
Definition txTwoMinInt : Transaction :=
  mkTransaction [mkEntry cash GoInt.MinInt; mkEntry sales GoInt.MinInt]
    1700000000 TransactionTypeRegular.
Definition txMaxIntPlusOne : Transaction :=
  mkTransaction [mkEntry cash GoInt.MaxInt; mkEntry sales 1]
    1700000000 TransactionTypeRegular.
Definition txMinIntMinusOne : Transaction :=
  mkTransaction [mkEntry cash GoInt.MinInt; mkEntry sales (-1)]
    1700000000 TransactionTypeRegular.

(** A recording double that accepts every save. *)
Definition spyAccepting : Spy := mkSpy [] None 1700000000.
(** A recording double whose storage rejects every save. *)
Definition spyRejecting : Spy := mkSpy [] (Some "disk full") 1700000000.

(** Every amount is a value of type [int]. *)
Definition wellTyped (t : Transaction) : Prop :=
  Forall (fun e => GoInt.in_range (Amount e)) (Entries t).

(** ** Sequences of calls *)

(** [func (t *Transaction) TotalIncreases() int], statement by statement
    on the receiver. *)
Definition TotalIncreasesM : TxM Z :=
  (entries <- tx_Entries ;;
   forRange entries
     (fun total entry =>
        if Amount entry >? 0 then tx_ret (GoInt.add total (Amount entry))
        else tx_ret total) 0)%tx.

(** [func (t *Transaction) TotalDecreases() int], statement by statement
    on the receiver. *)
Definition TotalDecreasesM : TxM Z :=
  (entries <- tx_Entries ;;
   forRange entries
     (fun total entry =>
        if Amount entry <? 0 then tx_ret (GoInt.add total (Amount entry))
        else tx_ret total) 0)%tx.

(** One call of an exported method of [*Transaction]. *)
Inductive Call : Type :=
| CallIsBalanced
| CallTotalIncreases
| CallTotalDecreases
| CallAddEntry (e : Entry)
| CallAddEntries (entries : list Entry).

Definition doCall (c : Call) : TxM unit :=
  match c with
  | CallIsBalanced => (IsBalancedM ;; tx_ret tt)%tx
  | CallTotalIncreases => (TotalIncreasesM ;; tx_ret tt)%tx
  | CallTotalDecreases => (TotalDecreasesM ;; tx_ret tt)%tx
  | CallAddEntry e => AddEntry e
  | CallAddEntries entries => AddEntries entries
  end.

(** The calls of a list, made one after the other on the same receiver. *)
Fixpoint doCalls (cs : list Call) : TxM unit :=
  match cs with
  | [] => tx_ret tt
  | c :: rest => (doCall c ;; doCalls rest)%tx
  end.

(** The entries that the calls of a list pass to the receiver. *)
Fixpoint passedEntries (cs : list Call) : list Entry :=
  match cs with
  | [] => []
  | CallAddEntry e :: rest => e :: passedEntries rest
  | CallAddEntries entries :: rest => entries ++ passedEntries rest
  | _ :: rest => passedEntries rest
  end.

(** [type Ledger struct { storage Storage }] *)
Record Ledger (W : Type) : Type := mkLedger { storage : W }.

Arguments mkLedger {W} storage.
Arguments storage {W} l.

Definition NewLedger {W : Type} (storage : W) : Ledger W := mkLedger storage.

Fixpoint prog_bind {A B} (p : Prog A) (k : A -> Prog B) : Prog B :=
  match p with
  | Ret a => k a
  | CallSaveTransaction ctx t k' => CallSaveTransaction ctx t (fun err => prog_bind (k' err) k)
  | CallNow k' => CallNow (fun now => prog_bind (k' now) k)
  | CallGetAccountBalance c body => CallGetAccountBalance c (prog_bind body k)
  end.

(** [for _, t := range ts { errs = append(errs, l.AddTransaction(ctx, t)) }] *)
Fixpoint addAll (ctx : Context) (ts : list Transaction) : Prog (list error) :=
  match ts with
  | [] => Ret []
  | t :: rest =>
      prog_bind (AddTransaction ctx t) (fun err =>
      prog_bind (addAll ctx rest) (fun errs => Ret (err :: errs)))
  end.

(** The boolean of the balance check. *)
Definition passesCheck (t : Transaction) : bool := fst (IsBalanced t).

(** The sum of the absolute values of the amounts, as integers. *)
Definition absSum (entries : list Entry) : Z :=
  fold_right (fun a s => Z.abs a + s) 0 (amounts entries).

(** ** Wrap-around arithmetic *)

Module GoIntFacts.
Import GoInt.

Lemma modulus_pos : 0 < modulus.
Proof. reflexivity. Qed.

Lemma wrap_in_range (z : Z) : in_range (wrap z).
Proof.
  unfold in_range, wrap.
  pose proof (Z.mod_pos_bound (z - MinInt) modulus modulus_pos) as Hb.
  change MaxInt with (MinInt + modulus - 1). lia.
Qed.

Lemma wrap_small (z : Z) : in_range z -> wrap z = z.
Proof.
  unfold in_range, wrap. intros Hz.
  rewrite Z.mod_small; [lia|].
  change MaxInt with (MinInt + modulus - 1) in Hz. lia.
Qed.

Lemma wrap_zero : wrap 0 = 0.
Proof. reflexivity. Qed.

(** Reducing an operand first changes nothing. *)
Lemma wrap_add_l (a b : Z) : wrap (wrap a + b) = wrap (a + b).
Proof.
  unfold wrap.
  replace ((a - MinInt) mod modulus + MinInt + b - MinInt)
    with ((a - MinInt) mod modulus + b) by lia.
  replace (a + b - MinInt) with ((a - MinInt) + b) by lia.
  rewrite Zplus_mod_idemp_l. reflexivity.
Qed.

Lemma wrap_congr (a b : Z) : a mod modulus = b mod modulus -> wrap a = wrap b.
Proof.
  unfold wrap. intros Hab.
  rewrite <- (Zminus_mod_idemp_l a), Hab, Zminus_mod_idemp_l. reflexivity.
Qed.

(** The reduced value is zero exactly for the multiples of [2^64]. *)
Lemma wrap_eq_0 (z : Z) : wrap z = 0 <-> z mod modulus = 0.
Proof.
  split; intros Hz.
  - pose proof (Z.div_mod (z - MinInt) modulus) as Hd.
    unfold wrap in Hz.
    assert (Hm : (z - MinInt) mod modulus = - MinInt) by lia.
    assert (Hq : z = modulus * ((z - MinInt) / modulus)).
    { pose proof modulus_pos. lia. }
    rewrite Hq, Z.mul_comm. apply Z_mod_mult.
  - rewrite <- wrap_zero. apply wrap_congr. rewrite Hz. reflexivity.
Qed.

Lemma wrap_eqb_0 (z : Z) : (wrap z =? 0) = (z mod modulus =? 0).
Proof.
  destruct (Z.eqb_spec (wrap z) 0) as [H|H], (Z.eqb_spec (z mod modulus) 0) as [H'|H'];
    try reflexivity; rewrite wrap_eq_0 in H; contradiction.
Qed.

End GoIntFacts.

(** ** The loops, in closed form *)

Section Loops.
Import GoInt GoIntFacts.

Lemma exactSum_cons (e : Entry) (es : list Entry) :
  exactSum (e :: es) = Amount e + exactSum es.
Proof. reflexivity. Qed.

Lemma exactSum_app (es es' : list Entry) :
  exactSum (es ++ es') = exactSum es + exactSum es'.
Proof.
  induction es as [|e es IH]; [reflexivity|].
  rewrite <- app_comm_cons, !exactSum_cons, IH. lia.
Qed.

Lemma exactSum_perm (es es' : list Entry) :
  Permutation es es' -> exactSum es = exactSum es'.
Proof.
  induction 1 as [|e l l' _ IH|e e' l|l l' l'' _ IH1 _ IH2];
    rewrite ?exactSum_cons; lia.
Qed.

(** A summing loop started from a reduced accumulator. *)
Lemma sum_loop_wrap (es : list Entry) (acc : Z) :
  fold_left (fun sum entry => add sum (Amount entry)) es (wrap acc)
  = wrap (acc + exactSum es).
Proof.
  revert acc. induction es as [|e es IH]; intros acc; simpl.
  - unfold exactSum; simpl. f_equal. lia.
  - unfold add. rewrite wrap_add_l, IH, exactSum_cons. f_equal. lia.
Qed.

Lemma sumAmounts_exact (es : list Entry) : sumAmounts es = wrap (exactSum es).
Proof.
  unfold sumAmounts. rewrite <- wrap_zero at 1. rewrite sum_loop_wrap. reflexivity.
Qed.

(** A guarded summing loop adds exactly the entries that pass the guard. *)
Lemma guarded_loop_wrap (guard : Entry -> bool) (es : list Entry) (acc : Z) :
  fold_left (fun total entry => if guard entry then add total (Amount entry) else total)
    es (wrap acc)
  = wrap (acc + exactSum (filter guard es)).
Proof.
  revert acc. induction es as [|e es IH]; intros acc; simpl.
  - unfold exactSum; simpl. f_equal. lia.
  - destruct (guard e).
    + unfold add. rewrite wrap_add_l, IH, exactSum_cons. f_equal. lia.
    + apply IH.
Qed.

Lemma TotalIncreases_exact (t : Transaction) :
  TotalIncreases t = wrap (exactSum (positives (Entries t))).
Proof.
  unfold TotalIncreases, positives. rewrite <- wrap_zero at 1.
  rewrite (guarded_loop_wrap (fun e => Amount e >? 0)). reflexivity.
Qed.

Lemma TotalDecreases_exact (t : Transaction) :
  TotalDecreases t = wrap (exactSum (negatives (Entries t))).
Proof.
  unfold TotalDecreases, negatives. rewrite <- wrap_zero at 1.
  rewrite (guarded_loop_wrap (fun e => Amount e <? 0)). reflexivity.
Qed.

Lemma exactSum_positives_nonneg (es : list Entry) : 0 <= exactSum (positives es).
Proof.
  induction es as [|e es IH]; simpl; [unfold exactSum; simpl; lia|].
  destruct (Z.gtb_spec (Amount e) 0); [rewrite exactSum_cons|]; lia.
Qed.

Lemma exactSum_negatives_nonpos (es : list Entry) : exactSum (negatives es) <= 0.
Proof.
  induction es as [|e es IH]; simpl; [unfold exactSum; simpl; lia|].
  destruct (Z.ltb_spec (Amount e) 0); [rewrite exactSum_cons|]; lia.
Qed.

(** Zero amounts belong to neither side and change no sum. *)
Lemma exactSum_split (es : list Entry) :
  exactSum es = exactSum (positives es) + exactSum (negatives es).
Proof.
  induction es as [|e es IH]; [reflexivity|].
  simpl. rewrite exactSum_cons, IH.
  destruct (Z.gtb_spec (Amount e) 0), (Z.ltb_spec (Amount e) 0);
    rewrite ?exactSum_cons; lia.
Qed.

Lemma positives_none (es : list Entry) :
  Forall (fun e => Amount e <= 0) es -> positives es = [].
Proof.
  induction 1 as [|e es He _ IH]; [reflexivity|]. simpl.
  destruct (Z.gtb_spec (Amount e) 0); [lia|exact IH].
Qed.

Lemma negatives_none (es : list Entry) :
  Forall (fun e => 0 <= Amount e) es -> negatives es = [].
Proof.
  induction 1 as [|e es He _ IH]; [reflexivity|]. simpl.
  destruct (Z.ltb_spec (Amount e) 0); [lia|exact IH].
Qed.

End Loops.

(** ** The balance check *)

Lemma IsBalanced_table (t : Transaction) :
  IsBalanced t = policyTable (List.length (Entries t)) (sumAmounts (Entries t)).
Proof.
  unfold IsBalanced, policyTable.
  destruct (Entries t) as [|e1 [|e2 es]]; simpl; try reflexivity.
  destruct (_ =? 0); reflexivity.
Qed.

(** C1, as stated, fails: two entries of [MinInt] each are values of type
    [int], their sum is [-2^64], not zero, and [IsBalanced] answers
    balanced with no error, where the table read over the integers asks
    for unbalanced. *)
Lemma IsBalanced_exact_table_fails :
  wellTyped txTwoMinInt /\
  (2 <= List.length (Entries txTwoMinInt))%nat /\
  exactSum (Entries txTwoMinInt) <> 0 /\
  IsBalanced txTwoMinInt = (true, None) /\
  IsBalanced txTwoMinInt
    <> policyTable (List.length (Entries txTwoMinInt)) (exactSum (Entries txTwoMinInt)).
Proof.
  split; [|split; [|split; [|split]]].
  - repeat constructor; vm_compute; congruence.
  - vm_compute. repeat constructor.
  - vm_compute. congruence.
  - vm_compute. reflexivity.
  - vm_compute. congruence.
Qed.

(** C1, amended: [IsBalanced] follows the four-case table with the sum
    taken as [int] computes it, that is the exact sum of the amounts
    reduced modulo [2^64] into the [int] range: no entries give (true,
    "transaction has no entries"), one entry gives (false, "transaction
    has only one entry"), two or more give (true, no error) when that sum
    is 0 and (false, "transaction is unbalanced") otherwise. Whenever the
    exact sum lies in the [int] range the table holds over the exact
    sum. *)
Theorem IsBalanced_policy (t : Transaction) :
  IsBalanced t
    = policyTable (List.length (Entries t)) (GoInt.wrap (exactSum (Entries t)))
  /\ (GoInt.in_range (exactSum (Entries t)) ->
      IsBalanced t = policyTable (List.length (Entries t)) (exactSum (Entries t))).
Proof.
  rewrite IsBalanced_table, sumAmounts_exact. split; [reflexivity|].
  intros Hr. rewrite GoIntFacts.wrap_small by exact Hr. reflexivity.
Qed.

Lemma IsBalanced_policy_witness :
  GoInt.in_range (exactSum (Entries txTriple)) /\
  IsBalanced txTriple = (false, Some "transaction is unbalanced").
Proof.
  assert (Hr : GoInt.in_range (exactSum (Entries txTriple))).
  { split; vm_compute; congruence. }
  split; [exact Hr|].
  exact (proj2 (IsBalanced_policy txTriple) Hr).
Defined.

(** ** The totals *)

(** C3, as stated, fails: for the amounts [MaxInt] and [1], both values of
    type [int], the increases wrap around to [MinInt], the decreases are
    0, and their sum (with or without wrap-around) is [-2^63], while the
    sum of the two amounts is [2^63]. *)
Lemma totals_exact_sum_fails :
  wellTyped txMaxIntPlusOne /\
  TotalIncreases txMaxIntPlusOne = GoInt.MinInt /\
  TotalDecreases txMaxIntPlusOne = 0 /\
  TotalIncreases txMaxIntPlusOne + TotalDecreases txMaxIntPlusOne
    <> exactSum (Entries txMaxIntPlusOne) /\
  GoInt.add (TotalIncreases txMaxIntPlusOne) (TotalDecreases txMaxIntPlusOne)
    <> exactSum (Entries txMaxIntPlusOne).
Proof.
  split; [|split; [|split; [|split]]].
  - repeat constructor; vm_compute; congruence.
  - vm_compute. reflexivity.
  - vm_compute. reflexivity.
  - vm_compute. congruence.
  - vm_compute. congruence.
Qed.

(** C3, amended: for every transaction (any entry set, including empty),
    [TotalIncreases() + TotalDecreases()], computed on [int], equals the
    sum of all entry amounts as the balance check computes it on [int],
    that is the exact sum reduced modulo [2^64]. When the exact sum of the
    positive amounts is at most [MaxInt] and the exact sum of the negative
    amounts is at least [MinInt], the two totals add up to the exact sum
    of all amounts. *)
Theorem totals_add_up (t : Transaction) :
  GoInt.add (TotalIncreases t) (TotalDecreases t) = sumAmounts (Entries t)
  /\ sumAmounts (Entries t) = GoInt.wrap (exactSum (Entries t))
  /\ (exactSum (positives (Entries t)) <= GoInt.MaxInt ->
      GoInt.MinInt <= exactSum (negatives (Entries t)) ->
      TotalIncreases t + TotalDecreases t = exactSum (Entries t)).
Proof.
  rewrite TotalIncreases_exact, TotalDecreases_exact, sumAmounts_exact.
  split; [|split; [reflexivity|]].
  - unfold GoInt.add.
    rewrite GoIntFacts.wrap_add_l, Z.add_comm, GoIntFacts.wrap_add_l.
    rewrite (exactSum_split (Entries t)). f_equal. lia.
  - intros Hp Hn.
    pose proof (exactSum_positives_nonneg (Entries t)) as Hp0.
    pose proof (exactSum_negatives_nonpos (Entries t)) as Hn0.
    assert (Hmin : GoInt.MinInt < 0) by reflexivity.
    assert (Hmax : 0 < GoInt.MaxInt) by reflexivity.
    rewrite !GoIntFacts.wrap_small by (unfold GoInt.in_range; lia).
    symmetry. apply exactSum_split.
Qed.

Lemma totals_add_up_witness :
  exactSum (positives (Entries txTriple)) <= GoInt.MaxInt /\
  GoInt.MinInt <= exactSum (negatives (Entries txTriple)) /\
  TotalIncreases txTriple + TotalDecreases txTriple = exactSum (Entries txTriple).
Proof.
  assert (Hp : exactSum (positives (Entries txTriple)) <= GoInt.MaxInt).
  { vm_compute. congruence. }
  assert (Hn : GoInt.MinInt <= exactSum (negatives (Entries txTriple))).
  { vm_compute. congruence. }
  split; [exact Hp|split; [exact Hn|]].
  exact (proj2 (proj2 (totals_add_up txTriple)) Hp Hn).
Defined.

(** C5, as stated, fails: for the amounts [MaxInt] and [1] the total of
    the increases is [MinInt], below zero; for [MinInt] and [-1] the total
    of the decreases is [MaxInt], above zero. *)
Lemma totals_sign_fails :
  wellTyped txMaxIntPlusOne /\ TotalIncreases txMaxIntPlusOne < 0 /\
  wellTyped txMinIntMinusOne /\ 0 < TotalDecreases txMinIntMinusOne.
Proof.
  split; [|split; [|split]].
  - repeat constructor; vm_compute; congruence.
  - vm_compute. reflexivity.
  - repeat constructor; vm_compute; congruence.
  - vm_compute. reflexivity.
Qed.

(** C5, amended: [TotalIncreases] is the sum, computed on [int] with
    wrap-around, of only the strictly positive amounts, and it is 0 when
    no amount is positive (empty or all-negative entry set); it is that
    sum exactly, hence at least 0, whenever the sum is at most [MaxInt].
    [TotalDecreases] is the sum, computed on [int] with wrap-around, of
    only the strictly negative amounts, not an absolute value; it is that
    sum exactly, hence at most 0, whenever the sum is at least
    [MinInt]. *)
Theorem totals_by_sign (t : Transaction) :
  TotalIncreases t = GoInt.wrap (exactSum (positives (Entries t)))
  /\ TotalDecreases t = GoInt.wrap (exactSum (negatives (Entries t)))
  /\ (Forall (fun e => Amount e <= 0) (Entries t) -> TotalIncreases t = 0)
  /\ (Forall (fun e => 0 <= Amount e) (Entries t) -> TotalDecreases t = 0)
  /\ (exactSum (positives (Entries t)) <= GoInt.MaxInt ->
      TotalIncreases t = exactSum (positives (Entries t)) /\ 0 <= TotalIncreases t)
  /\ (GoInt.MinInt <= exactSum (negatives (Entries t)) ->
      TotalDecreases t = exactSum (negatives (Entries t)) /\ TotalDecreases t <= 0).
Proof.
  pose proof (exactSum_positives_nonneg (Entries t)) as Hp0.
  pose proof (exactSum_negatives_nonpos (Entries t)) as Hn0.
  assert (Hmin : GoInt.MinInt < 0) by reflexivity.
  assert (Hmax : 0 < GoInt.MaxInt) by reflexivity.
  rewrite TotalIncreases_exact, TotalDecreases_exact.
  split; [reflexivity|split; [reflexivity|]].
  split; [|split; [|split]].
  - intros Hall. rewrite (positives_none _ Hall). reflexivity.
  - intros Hall. rewrite (negatives_none _ Hall). reflexivity.
  - intros Hp. rewrite GoIntFacts.wrap_small by (unfold GoInt.in_range; lia).
    split; [reflexivity|exact Hp0].
  - intros Hn. rewrite GoIntFacts.wrap_small by (unfold GoInt.in_range; lia).
    split; [reflexivity|exact Hn0].
Qed.

Lemma totals_by_sign_witness :
  exactSum (positives (Entries txTriple)) <= GoInt.MaxInt /\
  GoInt.MinInt <= exactSum (negatives (Entries txTriple)) /\
  TotalIncreases txTriple = 200 /\ TotalDecreases txTriple = -100 /\
  Forall (fun e => Amount e <= 0) (Entries txSingle) /\ TotalIncreases txSingle = 0 /\
  Forall (fun e => 0 <= Amount e) (Entries txEmpty) /\ TotalDecreases txEmpty = 0.
Proof.
  assert (Hp : exactSum (positives (Entries txTriple)) <= GoInt.MaxInt).
  { vm_compute. congruence. }
  assert (Hn : GoInt.MinInt <= exactSum (negatives (Entries txTriple))).
  { vm_compute. congruence. }
  assert (H1 : Forall (fun e => Amount e <= 0) (Entries txSingle)).
  { repeat constructor. vm_compute. congruence. }
  assert (H0 : Forall (fun e => 0 <= Amount e) (Entries txEmpty)).
  { constructor. }
  destruct (totals_by_sign txTriple) as (_ & _ & _ & _ & Hinc & Hdec).
  destruct (totals_by_sign txSingle) as (_ & _ & Hsingle & _).
  destruct (totals_by_sign txEmpty) as (_ & _ & _ & Hempty & _).
  split; [exact Hp|]. split; [exact Hn|].
  split; [exact (proj1 (Hinc Hp))|]. split; [exact (proj1 (Hdec Hn))|].
  split; [exact H1|]. split; [exact (Hsingle H1)|].
  split; [exact H0|exact (Hempty H0)].
Defined.

(** ** The Ledger *)

Section LedgerFacts.

Context {W : Type} `{Collaborators W}.

Lemma AddTransaction_unbalanced (ctx : Context) (t : Transaction) :
  fst (IsBalanced t) = false -> AddTransaction ctx t = Ret (snd (IsBalanced t)).
Proof.
  unfold AddTransaction. destruct (IsBalanced t) as [balanced err]; simpl.
  intros ->. reflexivity.
Qed.

Lemma AddTransaction_balanced (ctx : Context) (t : Transaction) :
  fst (IsBalanced t) = true -> AddTransaction ctx t = CallSaveTransaction ctx t Ret.
Proof.
  unfold AddTransaction. destruct (IsBalanced t) as [balanced err]; simpl.
  intros ->. reflexivity.
Qed.

Lemma run_save (ctx : Context) (t : Transaction) (w : W) :
  run (CallSaveTransaction ctx t Ret) w = SaveTransaction ctx t w.
Proof. simpl. destruct (SaveTransaction ctx t w); reflexivity. Qed.

Lemma saveCalls_save (ctx : Context) (t : Transaction) (w : W) :
  saveCalls (CallSaveTransaction ctx t (@Ret error)) w = 1%nat.
Proof. simpl. destruct (SaveTransaction ctx t w); reflexivity. Qed.

(** C2: [AddTransaction] first runs the balance check. When the check
    reports unbalanced, it returns the check's error, makes no call to
    [SaveTransaction] and leaves the collaborators as they were. When the
    check reports balanced, it makes exactly one call, [SaveTransaction]
    of that transaction, and returns the error (or nil) of that call
    unchanged. *)
Theorem AddTransaction_fail_fast_or_relay (ctx : Context) (t : Transaction) (w : W) :
  (fst (IsBalanced t) = false ->
     AddTransaction ctx t = Ret (snd (IsBalanced t))
     /\ run (AddTransaction ctx t) w = (snd (IsBalanced t), w)
     /\ saveCalls (AddTransaction ctx t) w = 0%nat)
  /\ (fst (IsBalanced t) = true ->
     AddTransaction ctx t = CallSaveTransaction ctx t Ret
     /\ run (AddTransaction ctx t) w = SaveTransaction ctx t w
     /\ saveCalls (AddTransaction ctx t) w = 1%nat).
Proof.
  split; intros Hb.
  - rewrite (AddTransaction_unbalanced ctx t Hb). repeat split.
  - rewrite (AddTransaction_balanced ctx t Hb).
    split; [reflexivity|]. split; [apply run_save|apply saveCalls_save].
Qed.

(** C4: a transaction with no entries is not stopped by [AddTransaction]:
    the check answers balanced together with the error "transaction has
    no entries", the transaction goes to [SaveTransaction] in exactly one
    call, and the value returned is the one of that call, the check's
    error being dropped. *)
Theorem AddTransaction_empty_is_saved (ctx : Context) (t : Transaction) (w : W) :
  Entries t = [] ->
  IsBalanced t = (true, Some "transaction has no entries")
  /\ AddTransaction ctx t = CallSaveTransaction ctx t Ret
  /\ run (AddTransaction ctx t) w = SaveTransaction ctx t w
  /\ saveCalls (AddTransaction ctx t) w = 1%nat.
Proof.
  intros Hes.
  assert (Hb : IsBalanced t = (true, Some "transaction has no entries")).
  { unfold IsBalanced. rewrite Hes. reflexivity. }
  split; [exact Hb|].
  rewrite (AddTransaction_balanced ctx t) by (rewrite Hb; reflexivity).
  split; [reflexivity|]. split; [apply run_save|apply saveCalls_save].
Qed.

End LedgerFacts.

Lemma AddTransaction_fail_fast_or_relay_witness :
  fst (IsBalanced txTriple) = false
  /\ run (AddTransaction ctxBackground txTriple) spyAccepting
     = (Some "transaction is unbalanced", spyAccepting)
  /\ saveCalls (AddTransaction ctxBackground txTriple) spyAccepting = 0%nat
  /\ fst (IsBalanced txPair) = true
  /\ run (AddTransaction ctxBackground txPair) spyRejecting
     = (Some "disk full", mkSpy [txPair] (Some "disk full") 1700000000)
  /\ saveCalls (AddTransaction ctxBackground txPair) spyRejecting = 1%nat.
Proof.
  assert (Hu : fst (IsBalanced txTriple) = false) by (vm_compute; reflexivity).
  assert (Hb : fst (IsBalanced txPair) = true) by (vm_compute; reflexivity).
  destruct (AddTransaction_fail_fast_or_relay ctxBackground txTriple spyAccepting)
    as [Hfail _].
  destruct (AddTransaction_fail_fast_or_relay ctxBackground txPair spyRejecting)
    as [_ Hrelay].
  destruct (Hfail Hu) as (_ & Hrun & Hcalls).
  destruct (Hrelay Hb) as (_ & Hrun' & Hcalls').
  split; [exact Hu|]. split; [exact Hrun|]. split; [exact Hcalls|].
  split; [exact Hb|]. split; [exact Hrun'|exact Hcalls'].
Defined.

Lemma AddTransaction_empty_is_saved_witness :
  Entries txEmpty = []
  /\ run (AddTransaction ctxBackground txEmpty) spyAccepting
     = (None, mkSpy [txEmpty] None 1700000000).
Proof.
  assert (He : Entries txEmpty = []) by reflexivity.
  split; [exact He|].
  exact (proj1 (proj2 (proj2
    (AddTransaction_empty_is_saved ctxBackground txEmpty spyAccepting He)))).
Defined.

(** ** The balance queries *)

Section QueryFacts.

Context {W : Type} `{Collaborators W}.

(** C8: each of the three exported queries makes exactly one call of the
    one general operation [getAccountBalance], which takes a cutoff time
    and the closed flag, and returns what that call returns. The
    current-balance query reads the clock once and passes the instant it
    read together with its own flag, so that with the flag set it is the
    closed-at query at the current instant and with the flag clear the at
    query at the current instant; the at query passes its own time with
    the flag clear (closing transactions excluded); the closed-at query
    passes its own time with the flag set (closing transactions
    included); neither of these two reads the clock. *)
Theorem balance_queries_delegate
  (ctx : Context) (accountID : UUID) (t : Time) (closed : bool) (w : W) :
  balanceCalls (GetAccountBalanceAt ctx accountID t) w
    = [mkBalanceCall ctx accountID t false]
  /\ balanceCalls (GetAccountBalanceClosedAt ctx accountID t) w
    = [mkBalanceCall ctx accountID t true]
  /\ balanceCalls (GetCurrentAccountBalance ctx accountID closed) w
    = [mkBalanceCall ctx accountID (fst (time_Now w)) closed]
  /\ nowCalls (GetCurrentAccountBalance ctx accountID closed) w = 1%nat
  /\ nowCalls (GetAccountBalanceAt ctx accountID t) w = 0%nat
  /\ nowCalls (GetAccountBalanceClosedAt ctx accountID t) w = 0%nat
  /\ run (GetAccountBalanceAt ctx accountID t) w
    = run (getAccountBalance ctx accountID t false) w
  /\ run (GetAccountBalanceClosedAt ctx accountID t) w
    = run (getAccountBalance ctx accountID t true) w
  /\ run (GetCurrentAccountBalance ctx accountID closed) w
    = run (getAccountBalance ctx accountID (fst (time_Now w)) closed) (snd (time_Now w))
  /\ GetCurrentAccountBalance ctx accountID true
    = CallNow (fun now => GetAccountBalanceClosedAt ctx accountID now)
  /\ GetCurrentAccountBalance ctx accountID false
    = CallNow (fun now => GetAccountBalanceAt ctx accountID now).
Proof.
  split; [reflexivity|]. split; [reflexivity|].
  split; [simpl; destruct (time_Now w); reflexivity|].
  split; [simpl; destruct (time_Now w); reflexivity|].
  split; [reflexivity|]. split; [reflexivity|].
  split; [reflexivity|]. split; [reflexivity|].
  split; [simpl; destruct (time_Now w); reflexivity|].
  split; reflexivity.
Qed.

Lemma run_now_call_ret {A} (c : Time -> BalanceCall) (a : A) (w : W) :
  run (CallNow (fun now => CallGetAccountBalance (c now) (Ret a))) w
  = (a, snd (time_Now w)).
Proof. simpl. destruct (time_Now w); reflexivity. Qed.

Lemma saveCalls_now_call_ret {A} (c : Time -> BalanceCall) (a : A) (w : W) :
  saveCalls (CallNow (fun now => CallGetAccountBalance (c now) (Ret a))) w = 0%nat.
Proof. simpl. destruct (time_Now w); reflexivity. Qed.

(** C9: for every account identifier, cutoff time and closed flag, and
    against every storage and clock, each of the three balance queries
    returns the zero [AccountBalance] (account ID of sixteen zero bytes,
    empty account type, balance 0, zero timestamp) and a nil error, and
    makes no call to the storage: [getAccountBalance] returns that pair
    whatever its arguments. *)
Theorem balance_queries_are_stubs
  (ctx : Context) (accountID : UUID) (t : Time) (closed : bool) (w : W) :
  getAccountBalance ctx accountID t closed = Ret (zeroAccountBalance, None)
  /\ run (GetAccountBalanceAt ctx accountID t) w = ((zeroAccountBalance, None), w)
  /\ run (GetAccountBalanceClosedAt ctx accountID t) w = ((zeroAccountBalance, None), w)
  /\ fst (run (GetCurrentAccountBalance ctx accountID closed) w) = (zeroAccountBalance, None)
  /\ saveCalls (GetAccountBalanceAt ctx accountID t) w = 0%nat
  /\ saveCalls (GetAccountBalanceClosedAt ctx accountID t) w = 0%nat
  /\ saveCalls (GetCurrentAccountBalance ctx accountID closed) w = 0%nat
  /\ zeroAccountBalance = mkAccountBalance (repeat Byte.x00 16) "" 0 zeroTime.
Proof.
  split; [reflexivity|]. split; [reflexivity|]. split; [reflexivity|].
  split.
  { unfold GetCurrentAccountBalance, call_getAccountBalance, getAccountBalance.
    rewrite run_now_call_ret. reflexivity. }
  split; [reflexivity|]. split; [reflexivity|].
  split; [|reflexivity].
  unfold GetCurrentAccountBalance, call_getAccountBalance, getAccountBalance.
  apply saveCalls_now_call_ret.
Qed.

End QueryFacts.

(** ** Building a transaction *)

Lemma AddEntry_run (e : Entry) (t : Transaction) :
  AddEntry e t = (tt, withEntries t (Entries t ++ [e])).
Proof. reflexivity. Qed.

Lemma AddEntries_run (es : list Entry) (t : Transaction) :
  AddEntries es t = (tt, withEntries t (Entries t ++ es)).
Proof. reflexivity. Qed.

Lemma withEntries_same (t : Transaction) : withEntries t (Entries t) = t.
Proof. destruct t; reflexivity. Qed.

Lemma forEachAddEntry_run (es : list Entry) (t : Transaction) :
  forEachAddEntry es t = (tt, withEntries t (Entries t ++ es)).
Proof.
  revert t. induction es as [|e es IH]; intros t.
  - simpl. unfold tx_ret. rewrite app_nil_r, withEntries_same. reflexivity.
  - simpl. unfold tx_bind. rewrite AddEntry_run, IH.
    unfold withEntries; simpl. rewrite <- app_assoc. reflexivity.
Qed.

(** C10: for every transaction and every sequence of entries,
    [AddEntries(entries)] leaves the transaction in the state that one
    [AddEntry] per entry, in that order, leaves it in. Both return
    normally; the timestamp and the transaction type are unchanged, the
    entries already there stay in place, and the new entries follow them
    in the given order. *)
Theorem AddEntries_is_repeated_AddEntry (t : Transaction) (entries : list Entry) :
  AddEntries entries t = forEachAddEntry entries t
  /\ AddEntries entries t
     = (tt, mkTransaction (Entries t ++ entries) (Timestamp t) (TransactionType_ t))
  /\ forall e, AddEntry e t
     = (tt, mkTransaction (Entries t ++ [e]) (Timestamp t) (TransactionType_ t)).
Proof.
  rewrite forEachAddEntry_run, AddEntries_run. repeat split.
Qed.

(** ** The balance check over time and order *)

(** A loop whose body only computes leaves the receiver as it was and
    yields the fold of the computation. *)
Lemma forRange_reads {A} (f : A -> Entry -> A) (body : A -> Entry -> TxM A)
  (entries : list Entry) (acc : A) (t : Transaction) :
  (forall a e t0, body a e t0 = (f a e, t0)) ->
  forRange entries body acc t = (fold_left f entries acc, t).
Proof.
  intros Hbody. revert acc. induction entries as [|e es IH]; intros acc.
  - reflexivity.
  - simpl. unfold tx_bind. rewrite Hbody. apply IH.
Qed.

Lemma IsBalancedM_run (t : Transaction) : IsBalancedM t = (IsBalanced t, t).
Proof.
  unfold IsBalanced, sumAmounts.
  cbv beta iota delta [IsBalancedM tx_bind tx_Entries tx_get tx_ret].
  destruct (Nat.eqb (List.length (Entries t)) 0); [reflexivity|].
  destruct (Nat.eqb (List.length (Entries t)) 1); [reflexivity|].
  rewrite (forRange_reads (fun sum entry => GoInt.add sum (Amount entry)))
    by reflexivity.
  cbv zeta. destruct (negb _); reflexivity.
Qed.

Lemma TotalIncreasesM_run (t : Transaction) : TotalIncreasesM t = (TotalIncreases t, t).
Proof.
  unfold TotalIncreases.
  cbv beta iota delta [TotalIncreasesM tx_bind tx_Entries tx_get tx_ret].
  apply forRange_reads. intros a e t0. destruct (Amount e >? 0); reflexivity.
Qed.

Lemma TotalDecreasesM_run (t : Transaction) : TotalDecreasesM t = (TotalDecreases t, t).
Proof.
  unfold TotalDecreases.
  cbv beta iota delta [TotalDecreasesM tx_bind tx_Entries tx_get tx_ret].
  apply forRange_reads. intros a e t0. destruct (Amount e <? 0); reflexivity.
Qed.

Lemma repeatIsBalanced_run (n : nat) (t : Transaction) :
  repeatIsBalanced n t = (repeat (IsBalanced t) n, t).
Proof.
  induction n as [|n IH]; [reflexivity|].
  simpl. unfold tx_bind at 1. rewrite IsBalancedM_run.
  unfold tx_bind. rewrite IH. reflexivity.
Qed.

Lemma checkAddCheck_run (e : Entry) (t : Transaction) :
  checkAddCheck e t
  = ((IsBalanced t, IsBalanced (withEntries t (Entries t ++ [e]))),
     withEntries t (Entries t ++ [e])).
Proof.
  unfold checkAddCheck, tx_bind. rewrite IsBalancedM_run, AddEntry_run, IsBalancedM_run.
  reflexivity.
Qed.

(** C6: the body of [IsBalanced], run statement by statement on its
    receiver, only reads: it leaves the transaction as it was and returns
    the answer determined by the entries present at the call (their
    count and their [int] sum); any number of calls in a row therefore
    return the same pair of boolean and error each time. No earlier
    verdict is kept: a check made after [AddEntry] is the check of the
    extended entry sequence, and for every transaction that was balanced
    with no error, adding an entry with a non-zero amount makes the next
    check answer (false, "transaction is unbalanced"). *)
Theorem IsBalanced_pure_and_fresh (t : Transaction) (n : nat) (e : Entry) :
  IsBalancedM t
    = (policyTable (List.length (Entries t)) (GoInt.wrap (exactSum (Entries t))), t)
  /\ repeatIsBalanced n t
    = (repeat (policyTable (List.length (Entries t)) (GoInt.wrap (exactSum (Entries t)))) n,
       t)
  /\ checkAddCheck e t
     = ((policyTable (List.length (Entries t)) (GoInt.wrap (exactSum (Entries t))),
         policyTable (S (List.length (Entries t)))
           (GoInt.wrap (exactSum (Entries t) + Amount e))),
        withEntries t (Entries t ++ [e]))
  /\ (fst (IsBalancedM t) = (true, None) ->
      GoInt.in_range (Amount e) ->
      Amount e <> 0 ->
      fst (checkAddCheck e t)
      = ((true, None), (false, Some "transaction is unbalanced"))).
Proof.
  assert (Hafter : IsBalanced (withEntries t (Entries t ++ [e]))
                   = policyTable (S (List.length (Entries t)))
                       (GoInt.wrap (exactSum (Entries t) + Amount e))).
  { rewrite IsBalanced_table, sumAmounts_exact. simpl Entries.
    rewrite length_app, exactSum_app, Nat.add_comm. simpl List.length.
    replace (exactSum [e]) with (Amount e) by (unfold exactSum; simpl; lia).
    reflexivity. }
  rewrite IsBalancedM_run, repeatIsBalanced_run, checkAddCheck_run, Hafter.
  rewrite IsBalanced_table, sumAmounts_exact.
  split; [reflexivity|]. split; [reflexivity|]. split; [reflexivity|].
  simpl fst. intros Hok Hrange Hnz.
  rewrite Hok. f_equal.
  destruct (Entries t) as [|e1 [|e2 es]]; simpl in Hok; try discriminate.
  simpl List.length. cbv beta iota delta [policyTable] in Hok |- *.
  destruct (Z.eqb_spec (GoInt.wrap (exactSum (e1 :: e2 :: es))) 0) as [Hs|Hs];
    [|discriminate].
  rewrite <- GoIntFacts.wrap_add_l, Hs. simpl Z.add.
  rewrite GoIntFacts.wrap_small by exact Hrange.
  destruct (Z.eqb_spec (Amount e) 0); [contradiction|reflexivity].
Qed.

Lemma IsBalanced_pure_and_fresh_witness :
  fst (IsBalancedM txPair) = (true, None)
  /\ GoInt.in_range (Amount plus)
  /\ Amount plus <> 0
  /\ fst (checkAddCheck plus txPair)
     = ((true, None), (false, Some "transaction is unbalanced")).
Proof.
  assert (Hok : fst (IsBalancedM txPair) = (true, None)) by (vm_compute; reflexivity).
  assert (Hr : GoInt.in_range (Amount plus)) by (split; vm_compute; congruence).
  assert (Hnz : Amount plus <> 0) by (vm_compute; congruence).
  split; [exact Hok|]. split; [exact Hr|]. split; [exact Hnz|].
  exact (proj2 (proj2 (proj2 (IsBalanced_pure_and_fresh txPair 0 plus))) Hok Hr Hnz).
Defined.

Lemma IsBalanced_entries (t t' : Transaction) :
  List.length (Entries t) = List.length (Entries t') ->
  exactSum (Entries t) = exactSum (Entries t') ->
  IsBalanced t = IsBalanced t'.
Proof.
  intros Hlen Hsum. rewrite !IsBalanced_table, !sumAmounts_exact, Hlen, Hsum.
  reflexivity.
Qed.

(** C7: two transactions whose entry sequences are permutations of one
    another get the same answer from [IsBalanced], boolean and error
    alike; and [AddEntry] keeps the insertion order in the stored
    sequence, the new entry coming last. *)
Theorem IsBalanced_order_independent (t t' : Transaction) :
  Permutation (Entries t) (Entries t') ->
  IsBalanced t = IsBalanced t'
  /\ forall e, Entries (snd (AddEntry e t)) = (Entries t ++ [e])%list.
Proof.
  intros Hperm. split; [|reflexivity].
  apply IsBalanced_entries.
  - apply Permutation_length, Hperm.
  - apply exactSum_perm, Hperm.
Qed.

Lemma IsBalanced_order_independent_witness :
  Permutation (Entries txTriple) (Entries (withEntries txTriple [plus; debit; credit]))
  /\ IsBalanced txTriple = IsBalanced (withEntries txTriple [plus; debit; credit]).
Proof.
  assert (Hperm : Permutation (Entries txTriple)
                    (Entries (withEntries txTriple [plus; debit; credit]))).
  { simpl. apply Permutation_sym.
    change [plus; debit; credit] with ([plus] ++ [debit; credit])%list.
    change [debit; credit; plus] with ([debit; credit] ++ [plus])%list.
    apply Permutation_app_comm. }
  split; [exact Hperm|].
  exact (proj1 (IsBalanced_order_independent txTriple _ Hperm)).
Defined.

(** ** More on wrap-around and on the loops *)

Lemma wrap_mod (z : Z) : GoInt.wrap z mod GoInt.modulus = z mod GoInt.modulus.
Proof.
  unfold GoInt.wrap. rewrite Zplus_mod_idemp_l. f_equal. lia.
Qed.

Lemma wrap_opp_wrap (z : Z) : GoInt.wrap (- GoInt.wrap z) = GoInt.wrap (- z).
Proof.
  apply GoIntFacts.wrap_congr.
  change (- GoInt.wrap z) with (0 - GoInt.wrap z). change (- z) with (0 - z).
  rewrite <- Zminus_mod_idemp_r, wrap_mod, Zminus_mod_idemp_r. reflexivity.
Qed.

Lemma wrap_add_r (a b : Z) : GoInt.wrap (a + GoInt.wrap b) = GoInt.wrap (a + b).
Proof.
  rewrite Z.add_comm, GoIntFacts.wrap_add_l, Z.add_comm. reflexivity.
Qed.

Lemma wrap_idem (z : Z) : GoInt.wrap (GoInt.wrap z) = GoInt.wrap z.
Proof. apply GoIntFacts.wrap_small, GoIntFacts.wrap_in_range. Qed.

(** Two values of type [int] that agree modulo [2^64] are equal. *)
Lemma in_range_mod_inj (a b : Z) :
  GoInt.in_range a -> GoInt.in_range b ->
  a mod GoInt.modulus = b mod GoInt.modulus -> a = b.
Proof.
  intros Ha Hb Hab.
  rewrite <- (GoIntFacts.wrap_small a Ha), <- (GoIntFacts.wrap_small b Hb).
  apply GoIntFacts.wrap_congr, Hab.
Qed.

Lemma sumAmounts_app (es es' : list Entry) :
  sumAmounts (es ++ es') = GoInt.add (sumAmounts es) (sumAmounts es').
Proof.
  rewrite !sumAmounts_exact, exactSum_app. unfold GoInt.add.
  rewrite GoIntFacts.wrap_add_l, wrap_add_r. reflexivity.
Qed.

Lemma positives_app (es es' : list Entry) :
  positives (es ++ es') = (positives es ++ positives es')%list.
Proof. apply filter_app. Qed.

Lemma negatives_app (es es' : list Entry) :
  negatives (es ++ es') = (negatives es ++ negatives es')%list.
Proof. apply filter_app. Qed.

Lemma add_totals_sumAmounts (t : Transaction) :
  GoInt.add (TotalIncreases t) (TotalDecreases t) = sumAmounts (Entries t).
Proof.
  rewrite TotalIncreases_exact, TotalDecreases_exact, sumAmounts_exact.
  unfold GoInt.add. rewrite GoIntFacts.wrap_add_l, wrap_add_r.
  rewrite <- exactSum_split. reflexivity.
Qed.

(** The check answers (true, nil) exactly for two or more entries whose
    [int] sum is zero. *)
Lemma IsBalanced_ok_iff (t : Transaction) :
  IsBalanced t = (true, None)
  <-> (2 <= List.length (Entries t))%nat /\ sumAmounts (Entries t) = 0.
Proof.
  rewrite IsBalanced_table. unfold policyTable.
  destruct (Entries t) as [|e1 [|e2 es]]; simpl List.length.
  - split; [discriminate|]. intros [Hl _]. lia.
  - split; [discriminate|]. intros [Hl _]. lia.
  - destruct (Z.eqb_spec (sumAmounts (e1 :: e2 :: es)) 0) as [Hs|Hs].
    + split; [intros _; split; [lia|exact Hs]|reflexivity].
    + split; [discriminate|]. intros [_ Hs']. contradiction.
Qed.

(** A false verdict always comes with an error. *)
Lemma IsBalanced_false_error (t : Transaction) :
  fst (IsBalanced t) = false -> snd (IsBalanced t) <> None.
Proof.
  rewrite IsBalanced_table. unfold policyTable.
  destruct (List.length (Entries t)) as [|[|n]]; simpl; try discriminate.
  destruct (_ =? 0); simpl; discriminate.
Qed.

Lemma exactSum_filter_perm (guard : Entry -> bool) (es es' : list Entry) :
  Permutation es es' -> exactSum (filter guard es) = exactSum (filter guard es').
Proof.
  induction 1 as [|e l l' _ IH|e e' l|l l' l'' _ IH1 _ IH2]; simpl.
  - reflexivity.
  - destruct (guard e); rewrite ?exactSum_cons, IH; reflexivity.
  - destruct (guard e), (guard e'); rewrite ?exactSum_cons; lia.
  - congruence.
Qed.

Lemma absSum_cons (e : Entry) (es : list Entry) :
  absSum (e :: es) = Z.abs (Amount e) + absSum es.
Proof. reflexivity. Qed.

Lemma absSum_bounds (es : list Entry) :
  - absSum es <= exactSum (negatives es)
  /\ exactSum (positives es) <= absSum es
  /\ - absSum es <= exactSum es <= absSum es.
Proof.
  induction es as [|e es IH]; [unfold absSum, exactSum; simpl; lia|].
  rewrite absSum_cons, exactSum_cons. simpl.
  destruct (Z.gtb_spec (Amount e) 0), (Z.ltb_spec (Amount e) 0);
    rewrite ?exactSum_cons; lia.
Qed.

(** ** Totals and sums under reordering and concatenation *)

(** X1: the two totals do not depend on the order of the entries: two
    transactions whose entry sequences are permutations of one another
    have the same [TotalIncreases] and the same [TotalDecreases], also
    when the additions wrap around. *)
Theorem totals_order_independent (t t' : Transaction) :
  Permutation (Entries t) (Entries t') ->
  TotalIncreases t = TotalIncreases t' /\ TotalDecreases t = TotalDecreases t'.
Proof.
  intros Hperm. rewrite !TotalIncreases_exact, !TotalDecreases_exact.
  unfold positives, negatives.
  rewrite (exactSum_filter_perm _ _ _ Hperm).
  rewrite (exactSum_filter_perm (fun e => Amount e <? 0) _ _ Hperm).
  split; reflexivity.
Qed.

Lemma totals_order_independent_witness :
  Permutation (Entries txTriple) (Entries (withEntries txTriple [plus; debit; credit]))
  /\ TotalIncreases (withEntries txTriple [plus; debit; credit]) = 200
  /\ TotalDecreases (withEntries txTriple [plus; debit; credit]) = -100.
Proof.
  assert (Hperm : Permutation (Entries txTriple)
                    (Entries (withEntries txTriple [plus; debit; credit]))).
  { simpl. apply Permutation_sym.
    change [plus; debit; credit] with ([plus] ++ [debit; credit])%list.
    change [debit; credit; plus] with ([debit; credit] ++ [plus])%list.
    apply Permutation_app_comm. }
  destruct (totals_order_independent txTriple _ Hperm) as [Hi Hd].
  split; [exact Hperm|]. split; [exact (eq_sym Hi)|exact (eq_sym Hd)].
Defined.

(** X2: after [AddEntries(entries)] the [int] sum of the amounts, the
    total of the increases and the total of the decreases are each the
    [int] sum of the value before the call and the value of the added
    entries taken alone. *)
Theorem AddEntries_adds_up (t : Transaction) (entries : list Entry) :
  sumAmounts (Entries (snd (AddEntries entries t)))
    = GoInt.add (sumAmounts (Entries t)) (sumAmounts entries)
  /\ TotalIncreases (snd (AddEntries entries t))
    = GoInt.add (TotalIncreases t) (TotalIncreases (withEntries t entries))
  /\ TotalDecreases (snd (AddEntries entries t))
    = GoInt.add (TotalDecreases t) (TotalDecreases (withEntries t entries)).
Proof.
  rewrite AddEntries_run. simpl snd.
  rewrite !TotalIncreases_exact, !TotalDecreases_exact. simpl Entries.
  rewrite sumAmounts_app, positives_app, negatives_app, !exactSum_app.
  unfold GoInt.add. rewrite !GoIntFacts.wrap_add_l, !wrap_add_r.
  repeat split.
Qed.

(** X3: a transaction that has at least one entry becomes balanced with
    no error by adding one entry, and the amount that does it is unique
    among the values of [int]: the negation, on [int], of the current
    [int] sum of the amounts. *)
Theorem offsetting_entry_balances (t : Transaction) (e : Entry) :
  Entries t <> [] ->
  GoInt.in_range (Amount e) ->
  (IsBalanced (snd (AddEntry e t)) = (true, None)
   <-> Amount e = GoInt.wrap (- sumAmounts (Entries t))).
Proof.
  intros Hne He. rewrite AddEntry_run. simpl snd.
  rewrite IsBalanced_ok_iff. simpl Entries.
  rewrite length_app, sumAmounts_app. simpl List.length.
  assert (Hlen : (2 <= List.length (Entries t) + 1)%nat).
  { destruct (Entries t); [contradiction|simpl; lia]. }
  assert (Hone : sumAmounts [e] = GoInt.wrap (Amount e)) by reflexivity.
  rewrite Hone. unfold GoInt.add. rewrite wrap_add_r.
  rewrite sumAmounts_exact, GoIntFacts.wrap_add_l, wrap_opp_wrap.
  rewrite GoIntFacts.wrap_eq_0.
  split.
  - intros [_ Hmod].
    apply in_range_mod_inj; [exact He|apply GoIntFacts.wrap_in_range|].
    rewrite wrap_mod.
    replace (Amount e) with ((exactSum (Entries t) + Amount e) - exactSum (Entries t)) at 1
      by lia.
    rewrite <- Zminus_mod_idemp_l, Hmod. reflexivity.
  - intros Ha. split; [exact Hlen|].
    rewrite Ha, <- wrap_mod, wrap_add_r.
    replace (exactSum (Entries t) + - exactSum (Entries t)) with 0 by lia.
    reflexivity.
Qed.

Lemma offsetting_entry_balances_witness :
  Entries txTriple <> [] /\ GoInt.in_range (-100) /\
  IsBalanced (snd (AddEntry (mkEntry cash (-100)) txTriple)) = (true, None).
Proof.
  assert (Hne : Entries txTriple <> []) by discriminate.
  assert (He : GoInt.in_range (Amount (mkEntry cash (-100)))).
  { split; vm_compute; congruence. }
  split; [exact Hne|]. split; [exact He|].
  apply (proj2 (offsetting_entry_balances txTriple (mkEntry cash (-100)) Hne He)).
  vm_compute. reflexivity.
Defined.

(** X4: appending the entries of a transaction that is balanced with no
    error to a transaction that is balanced with no error gives a
    transaction that is balanced with no error. *)
Theorem merging_balanced_is_balanced (t1 t2 : Transaction) :
  IsBalanced t1 = (true, None) ->
  IsBalanced t2 = (true, None) ->
  IsBalanced (snd (AddEntries (Entries t2) t1)) = (true, None).
Proof.
  rewrite !IsBalanced_ok_iff, AddEntries_run. simpl snd. simpl Entries.
  intros [Hl1 Hs1] [Hl2 Hs2].
  rewrite length_app, sumAmounts_app, Hs1, Hs2.
  split; [lia|reflexivity].
Qed.

Lemma merging_balanced_is_balanced_witness :
  IsBalanced txPair = (true, None) /\
  IsBalanced (snd (AddEntries (Entries txPair) txPair)) = (true, None).
Proof.
  assert (Hb : IsBalanced txPair = (true, None)) by (vm_compute; reflexivity).
  split; [exact Hb|exact (merging_balanced_is_balanced txPair txPair Hb Hb)].
Defined.

(** X5: for a transaction with two or more entries, the check answers
    balanced with no error exactly when [TotalIncreases() +
    TotalDecreases()], computed on [int], is 0; and when moreover neither
    total has wrapped around, a balanced transaction has
    [TotalIncreases() = -TotalDecreases()]. *)
Theorem balanced_iff_totals_cancel (t : Transaction) :
  (2 <= List.length (Entries t))%nat ->
  (IsBalanced t = (true, None)
   <-> GoInt.add (TotalIncreases t) (TotalDecreases t) = 0)
  /\ (IsBalanced t = (true, None) ->
      exactSum (positives (Entries t)) <= GoInt.MaxInt ->
      GoInt.MinInt <= exactSum (negatives (Entries t)) ->
      TotalIncreases t = - TotalDecreases t).
Proof.
  intros Hlen. rewrite IsBalanced_ok_iff, add_totals_sumAmounts. split.
  - split; [intros [_ Hs]; exact Hs|intros Hs; split; [exact Hlen|exact Hs]].
  - intros [_ Hs] Hp Hn.
    pose proof (exactSum_positives_nonneg (Entries t)) as Hp0.
    pose proof (exactSum_negatives_nonpos (Entries t)) as Hn0.
    assert (Hmin : GoInt.MinInt < 0) by reflexivity.
    assert (Hmax : 0 < GoInt.MaxInt) by reflexivity.
    rewrite sumAmounts_exact, GoIntFacts.wrap_small in Hs
      by (rewrite exactSum_split; unfold GoInt.in_range; lia).
    rewrite TotalIncreases_exact, TotalDecreases_exact.
    rewrite !GoIntFacts.wrap_small by (unfold GoInt.in_range; lia).
    rewrite exactSum_split in Hs. lia.
Qed.

Lemma balanced_iff_totals_cancel_witness :
  (2 <= List.length (Entries txPair))%nat /\
  IsBalanced txPair = (true, None) /\
  TotalIncreases txPair = - TotalDecreases txPair.
Proof.
  assert (Hlen : (2 <= List.length (Entries txPair))%nat) by (simpl; lia).
  assert (Hb : IsBalanced txPair = (true, None)) by (vm_compute; reflexivity).
  assert (Hp : exactSum (positives (Entries txPair)) <= GoInt.MaxInt).
  { vm_compute. congruence. }
  assert (Hn : GoInt.MinInt <= exactSum (negatives (Entries txPair))).
  { vm_compute. congruence. }
  split; [exact Hlen|]. split; [exact Hb|].
  exact (proj2 (balanced_iff_totals_cancel txPair Hlen) Hb Hp Hn).
Defined.

(** ** The Ledger over many transactions *)

Lemma AddTransaction_cases (ctx : Context) (t : Transaction) :
  AddTransaction ctx t
  = if passesCheck t then CallSaveTransaction ctx t Ret else Ret (snd (IsBalanced t)).
Proof.
  unfold AddTransaction, passesCheck.
  destruct (IsBalanced t) as [[|] err]; reflexivity.
Qed.

Lemma run_bind {W} `{Collaborators W} {A B} (p : Prog A) (k : A -> Prog B) (w : W) :
  run (prog_bind p k) w = run (k (fst (run p w))) (snd (run p w)).
Proof.
  revert w. induction p as [a|ctx t k' IH|k' IH|c body IH]; intros w; simpl.
  - reflexivity.
  - destruct (SaveTransaction ctx t w) as [err w']. apply IH.
  - destruct (time_Now w) as [now w']. apply IH.
  - apply IH.
Qed.

Lemma saveCalls_bind {W} `{Collaborators W} {A B} (p : Prog A) (k : A -> Prog B) (w : W) :
  saveCalls (prog_bind p k) w
  = (saveCalls p w + saveCalls (k (fst (run p w))) (snd (run p w)))%nat.
Proof.
  revert w. induction p as [a|ctx t k' IH|k' IH|c body IH]; intros w; simpl.
  - reflexivity.
  - destruct (SaveTransaction ctx t w) as [err w']. rewrite IH. reflexivity.
  - destruct (time_Now w) as [now w']. apply IH.
  - apply IH.
Qed.

(** X6: [AddTransaction] returns nil only after the storage has saved the
    transaction: whenever its result is nil, the balance check answered
    true, exactly one [SaveTransaction] call was made, with that
    transaction, and nil is what the call returned. *)
Theorem AddTransaction_nil_means_saved {W} `{Collaborators W}
  (ctx : Context) (t : Transaction) (w : W) :
  fst (run (AddTransaction ctx t) w) = None ->
  passesCheck t = true
  /\ saveCalls (AddTransaction ctx t) w = 1%nat
  /\ run (AddTransaction ctx t) w = SaveTransaction ctx t w
  /\ fst (SaveTransaction ctx t w) = None.
Proof.
  rewrite AddTransaction_cases.
  destruct (passesCheck t) eqn:Hp.
  - simpl. destruct (SaveTransaction ctx t w) as [err w']. simpl.
    intros ->. repeat split.
  - simpl. intros Hnil. exfalso.
    exact (IsBalanced_false_error t Hp Hnil).
Qed.

Lemma AddTransaction_nil_means_saved_witness :
  fst (run (AddTransaction ctxBackground txPair) spyAccepting) = None
  /\ run (AddTransaction ctxBackground txPair) spyAccepting
     = (None, mkSpy [txPair] None 1700000000).
Proof.
  assert (Hnil : fst (run (AddTransaction ctxBackground txPair) spyAccepting) = None).
  { vm_compute. reflexivity. }
  split; [exact Hnil|].
  exact (proj1 (proj2 (proj2
    (AddTransaction_nil_means_saved ctxBackground txPair spyAccepting Hnil)))).
Defined.

Lemma run_addAll_spy (ctx : Context) (ts : list Transaction) (spy : Spy) :
  run (addAll ctx ts) spy
  = (map (fun t => if passesCheck t then spy_answer spy else snd (IsBalanced t)) ts,
     mkSpy (spy_saved spy ++ filter passesCheck ts) (spy_answer spy) (spy_clock spy)).
Proof.
  revert spy. induction ts as [|t ts IH]; intros spy.
  - simpl. rewrite app_nil_r. destruct spy; reflexivity.
  - simpl addAll. rewrite run_bind, run_bind, AddTransaction_cases.
    destruct (passesCheck t) eqn:Hp; simpl; rewrite Hp, IH; simpl.
    + rewrite <- app_assoc. reflexivity.
    + reflexivity.
Qed.

Lemma saveCalls_addAll {W} `{Collaborators W} (ctx : Context) (ts : list Transaction) (w : W) :
  saveCalls (addAll ctx ts) w = List.length (filter passesCheck ts).
Proof.
  revert w. induction ts as [|t ts IH]; intros w; [reflexivity|].
  simpl addAll. rewrite saveCalls_bind, saveCalls_bind, IH, AddTransaction_cases.
  destruct (passesCheck t) eqn:Hp; simpl; rewrite ?Hp.
  - destruct (SaveTransaction ctx t w); simpl. lia.
  - simpl. lia.
Qed.

(** X7: a run of [AddTransaction] over a sequence of transactions through
    one [Ledger] calls [SaveTransaction] once for each transaction whose
    check answers true and for no other, whatever the storage answers;
    against the recording storage of a [Ledger] made by [NewLedger], what
    is recorded is exactly those transactions, in the order given, each
    unbalanced transaction getting the error of its check and each saved
    one the storage's answer. *)
Theorem Ledger_saves_exactly_the_passing {W} `{Collaborators W}
  (ctx : Context) (ts : list Transaction) (w : W) (spy : Spy) :
  saveCalls (addAll ctx ts) w = List.length (filter passesCheck ts)
  /\ run (addAll ctx ts) (storage (NewLedger spy))
     = (map (fun t => if passesCheck t then spy_answer spy else snd (IsBalanced t)) ts,
        mkSpy (spy_saved spy ++ filter passesCheck ts) (spy_answer spy) (spy_clock spy))
  /\ Forall (fun t => passesCheck t = true)
       (skipn (List.length (spy_saved spy))
          (spy_saved (snd (run (addAll ctx ts) (storage (NewLedger spy)))))).
Proof.
  split; [apply saveCalls_addAll|].
  simpl storage. rewrite run_addAll_spy. split; [reflexivity|].
  simpl. rewrite skipn_app, skipn_all, Nat.sub_diag. simpl.
  apply Forall_forall. intros t Hin. apply filter_In in Hin. exact (proj2 Hin).
Qed.

(** ** Sequences of method calls on one transaction *)

Lemma doCall_run (c : Call) (t : Transaction) :
  doCall c t = (tt, withEntries t (Entries t ++ passedEntries [c])).
Proof.
  destruct c; simpl; unfold tx_bind;
    rewrite ?IsBalancedM_run, ?TotalIncreasesM_run, ?TotalDecreasesM_run;
    unfold tx_ret; rewrite ?app_nil_r, ?withEntries_same; reflexivity.
Qed.

Lemma doCalls_run (cs : list Call) (t : Transaction) :
  doCalls cs t = (tt, withEntries t (Entries t ++ passedEntries cs)).
Proof.
  revert t. induction cs as [|c cs IH]; intros t.
  - simpl. unfold tx_ret. rewrite app_nil_r, withEntries_same. reflexivity.
  - simpl doCalls. unfold tx_bind. rewrite doCall_run, IH.
    unfold withEntries. simpl Entries. simpl Timestamp. simpl TransactionType_.
    rewrite <- app_assoc. do 3 f_equal.
    destruct c; simpl; rewrite ?app_nil_r; reflexivity.
Qed.

(** X8: whatever sequence of exported method calls is made on a
    transaction, its timestamp and its type stay as they were, the
    entries it had stay in place at the front, nothing is removed or
    changed, and what follows them is exactly the entries passed to
    [AddEntry] and [AddEntries], in call order; the three reading methods
    add nothing. *)
Theorem methods_only_append (cs : list Call) (t : Transaction) :
  snd (doCalls cs t) = withEntries t (Entries t ++ passedEntries cs)
  /\ Timestamp (snd (doCalls cs t)) = Timestamp t
  /\ TransactionType_ (snd (doCalls cs t)) = TransactionType_ t
  /\ firstn (List.length (Entries t)) (Entries (snd (doCalls cs t))) = Entries t
  /\ (List.length (Entries t) <= List.length (Entries (snd (doCalls cs t))))%nat.
Proof.
  rewrite doCalls_run. simpl.
  split; [reflexivity|]. split; [reflexivity|]. split; [reflexivity|].
  split.
  - rewrite firstn_app, firstn_all, Nat.sub_diag. simpl. apply app_nil_r.
  - rewrite length_app. lia.
Qed.

(** ** Constructors *)

(** X9: [NewTransaction] and [NewRegularTransaction] build the same
    transaction, tagged Regular, and [NewClosingTransaction] one tagged
    Closing; each starts with no entries and carries the given timestamp.
    The tag and the timestamp play no part in validation: after the same
    sequence of method calls, a closing and a regular transaction hold
    the same entries, namely the ones passed in, and get the same answer
    from the check and the same two totals. *)
Theorem constructors_differ_in_tag_only (cs : list Call) (ts ts' : Time) :
  NewTransaction ts = NewRegularTransaction ts
  /\ snd (doCalls cs (NewTransaction ts))
     = mkTransaction (passedEntries cs) ts TransactionTypeRegular
  /\ snd (doCalls cs (NewClosingTransaction ts'))
     = mkTransaction (passedEntries cs) ts' TransactionTypeClosing
  /\ IsBalanced (snd (doCalls cs (NewClosingTransaction ts')))
     = IsBalanced (snd (doCalls cs (NewTransaction ts)))
  /\ TotalIncreases (snd (doCalls cs (NewClosingTransaction ts')))
     = TotalIncreases (snd (doCalls cs (NewTransaction ts)))
  /\ TotalDecreases (snd (doCalls cs (NewClosingTransaction ts')))
     = TotalDecreases (snd (doCalls cs (NewTransaction ts))).
Proof.
  rewrite !doCalls_run. simpl. repeat split.
Qed.

(** ** Where wrap-around cannot happen *)

(** X11: when the absolute values of the amounts add up to at most
    [MaxInt], no addition of the three loops wraps around: the check is
    the policy table over the exact sum of the amounts, [TotalIncreases]
    is the exact sum of the positive amounts, [TotalDecreases] the exact
    sum of the negative ones, and the two totals add up to the exact sum
    of all amounts. *)
Theorem no_wrap_within_abs_bound (t : Transaction) :
  absSum (Entries t) <= GoInt.MaxInt ->
  IsBalanced t = policyTable (List.length (Entries t)) (exactSum (Entries t))
  /\ TotalIncreases t = exactSum (positives (Entries t))
  /\ TotalDecreases t = exactSum (negatives (Entries t))
  /\ TotalIncreases t + TotalDecreases t = exactSum (Entries t)
  /\ 0 <= TotalIncreases t /\ TotalDecreases t <= 0.
Proof.
  intros Habs.
  destruct (absSum_bounds (Entries t)) as (Hn & Hp & Hs).
  pose proof (exactSum_positives_nonneg (Entries t)) as Hp0.
  pose proof (exactSum_negatives_nonpos (Entries t)) as Hn0.
  assert (Hmin : GoInt.MinInt = - GoInt.MaxInt - 1) by reflexivity.
  rewrite IsBalanced_table, sumAmounts_exact, TotalIncreases_exact, TotalDecreases_exact.
  rewrite !GoIntFacts.wrap_small by (unfold GoInt.in_range; lia).
  split; [reflexivity|]. split; [reflexivity|]. split; [reflexivity|].
  split; [symmetry; apply exactSum_split|]. split; assumption.
Qed.

Lemma no_wrap_within_abs_bound_witness :
  absSum (Entries txTriple) <= GoInt.MaxInt
  /\ IsBalanced txTriple = (false, Some "transaction is unbalanced")
  /\ TotalIncreases txTriple = 200 /\ TotalDecreases txTriple = -100.
Proof.
  assert (Habs : absSum (Entries txTriple) <= GoInt.MaxInt).
  { vm_compute. congruence. }
  destruct (no_wrap_within_abs_bound txTriple Habs) as (Hb & Hi & Hd & _).
  split; [exact Habs|]. split; [exact Hb|]. split; [exact Hi|exact Hd].
Defined.

(** X12: for a transaction of exactly two entries whose amounts are
    values of [int], the check answers balanced with no error exactly
    when the two amounts add up to zero or both are [MinInt]; that pair
    is the only one on which wrap-around accepts two amounts that do not
    cancel. *)
Theorem two_entries_balanced_iff (a b : Entry) (ts : Time) (ty : TransactionType) :
  GoInt.in_range (Amount a) ->
  GoInt.in_range (Amount b) ->
  (IsBalanced (mkTransaction [a; b] ts ty) = (true, None)
   <-> Amount a + Amount b = 0
       \/ (Amount a = GoInt.MinInt /\ Amount b = GoInt.MinInt)).
Proof.
  intros Ha Hb. rewrite IsBalanced_ok_iff, sumAmounts_exact. simpl Entries.
  assert (Hsum : exactSum [a; b] = Amount a + Amount b).
  { unfold exactSum. simpl. lia. }
  rewrite Hsum, GoIntFacts.wrap_eq_0.
  unfold GoInt.in_range in Ha, Hb.
  change GoInt.MinInt with (-9223372036854775808) in *.
  change GoInt.MaxInt with 9223372036854775807 in *.
  change GoInt.modulus with 18446744073709551616.
  split.
  - intros [_ Hmod].
    apply Z.mod_divide in Hmod; [|lia]. destruct Hmod as [k Hk].
    assert (Hcases : k = 0 \/ k = -1) by lia.
    destruct Hcases as [-> | ->]; [left|right]; lia.
  - intros [H0 | [HaM HbM]].
    + split; [simpl; lia|]. rewrite H0. reflexivity.
    + split; [simpl; lia|]. rewrite HaM, HbM. reflexivity.
Qed.

Lemma two_entries_balanced_iff_witness :
  GoInt.in_range (Amount debit) /\ GoInt.in_range (Amount credit) /\
  IsBalanced (mkTransaction [debit; credit] 0 TransactionTypeClosing) = (true, None).
Proof.
  assert (Ha : GoInt.in_range (Amount debit)) by (split; vm_compute; congruence).
  assert (Hb : GoInt.in_range (Amount credit)) by (split; vm_compute; congruence).
  split; [exact Ha|]. split; [exact Hb|].
  apply (proj2 (two_entries_balanced_iff debit credit 0 TransactionTypeClosing Ha Hb)).
  left. reflexivity.
Defined.
